(** * cl/search/api_views.py: the REST viewsets of the search application

    The module declares nine model viewsets and one search viewset.  The
    class bodies are data (which serializer, filter, permissions, ordering
    fields) plus one method each: [get_queryset] for the model viewsets and
    [list] for the search viewset.  Class attributes are embedded as records,
    the methods as functions; names the module imports but does not define
    are arguments. *)

From Stdlib Require Import ZArith.
From stdpp Require Import base option list strings gmap.

Local Open Scope string_scope.

(** ** Python values *)

Inductive PyVal :=
| PyNone
| PyBool (b : bool)
| PyInt (n : Z)
| PyStr (s : string).

#[global] Instance PyVal_eq_dec : EqDecision PyVal.
Proof. solve_decision. Defined.

(** [a == b].  A bool is an int (True == 1); a string equals only a string. *)
Definition py_eq (a b : PyVal) : bool :=
  match a, b with
  | PyNone, PyNone => true
  | PyStr s, PyStr t => bool_decide (s = t)
  | PyInt n, PyInt m => bool_decide (n = m)
  | PyBool x, PyBool y => bool_decide (x = y)
  | PyBool x, PyInt m | PyInt m, PyBool x => bool_decide (Z.b2z x = m)
  | _, _ => false
  end.

(** ** The ORM: query descriptions and their evaluation *)

Inductive Model :=
| OriginatingCourtInformation
| Docket
| DocketEntry
| RECAPDocument
| Court
| OpinionCluster
| Opinion
| OpinionsCited
| Tag.

#[global] Instance Model_eq_dec : EqDecision Model.
Proof. solve_decision. Defined.

(** A queryset is a lazily evaluated description of a query.  [_db] is the
    alias chosen with [using]; [None] leaves the choice to the default
    routing.  [ordering = None] stands for the model's default ordering. *)
Record QuerySet := {
  model : Model;
  _db : option string;
  select_related_fields : list string;
  prefetch_related_lookups : list string;
  filters : list (string * PyVal);
  excludes : list (string * PyVal);
  ordering : option (list string);
}.

(** [Model.objects] *)
Definition objects (m : Model) : QuerySet :=
  {| model := m; _db := None;
     select_related_fields := []; prefetch_related_lookups := [];
     filters := []; excludes := []; ordering := None |}.

(** [qs.using(alias)] ([using] is reserved in Rocq) *)
Definition using_ (alias : string) (qs : QuerySet) : QuerySet :=
  {| model := model qs; _db := Some alias;
     select_related_fields := select_related_fields qs;
     prefetch_related_lookups := prefetch_related_lookups qs;
     filters := filters qs; excludes := excludes qs;
     ordering := ordering qs |}.

Definition all (qs : QuerySet) : QuerySet := qs.

Definition select_related (fields : list string) (qs : QuerySet) : QuerySet :=
  {| model := model qs; _db := _db qs;
     select_related_fields := select_related_fields qs ++ fields;
     prefetch_related_lookups := prefetch_related_lookups qs;
     filters := filters qs; excludes := excludes qs;
     ordering := ordering qs |}.

Definition prefetch_related (lookups : list string) (qs : QuerySet) : QuerySet :=
  {| model := model qs; _db := _db qs;
     select_related_fields := select_related_fields qs;
     prefetch_related_lookups := prefetch_related_lookups qs ++ lookups;
     filters := filters qs; excludes := excludes qs;
     ordering := ordering qs |}.

(** [qs.filter(field=value)] *)
Definition filter_by (field : string) (value : PyVal) (qs : QuerySet) : QuerySet :=
  {| model := model qs; _db := _db qs;
     select_related_fields := select_related_fields qs;
     prefetch_related_lookups := prefetch_related_lookups qs;
     filters := filters qs ++ [(field, value)]; excludes := excludes qs;
     ordering := ordering qs |}.

(** [qs.exclude(field=value)] *)
Definition exclude (field : string) (value : PyVal) (qs : QuerySet) : QuerySet :=
  {| model := model qs; _db := _db qs;
     select_related_fields := select_related_fields qs;
     prefetch_related_lookups := prefetch_related_lookups qs;
     filters := filters qs; excludes := excludes qs ++ [(field, value)];
     ordering := ordering qs |}.

(** [qs.order_by(f1, ..., fn)] replaces any earlier ordering; with no field it
    removes the ordering altogether. *)
Definition order_by (fields : list string) (qs : QuerySet) : QuerySet :=
  {| model := model qs; _db := _db qs;
     select_related_fields := select_related_fields qs;
     prefetch_related_lookups := prefetch_related_lookups qs;
     filters := filters qs; excludes := excludes qs;
     ordering := Some fields |}.

(** [django.db.DEFAULT_DB_ALIAS], the alias of the default database. *)
Definition DEFAULT_DB_ALIAS : string := "default".

(** The alias a queryset is evaluated on: the one given to [using], or else
    the one the default routing picks. *)
Definition db (fallback : string) (qs : QuerySet) : string :=
  default fallback (_db qs).

(** A table row maps column names to values; a database server holds one
    table per model, and [tables alias] is the server behind an alias. *)
Abbreviation Row := (gmap string PyVal).

Definition matches (row : Row) (cond : string * PyVal) : bool :=
  match row !! cond.1 with
  | Some v => py_eq v cond.2
  | None => false
  end.

Definition selects (qs : QuerySet) (row : Row) : bool :=
  forallb (matches row) (filters qs) && negb (existsb (matches row) (excludes qs)).

(** The rows a queryset returns (which rows, in table order: sorting by
    [ordering] moves rows, it neither adds nor drops any). *)
Definition evaluate (tables : string -> Model -> list Row) (fallback : string)
    (qs : QuerySet) : list Row :=
  List.filter (selects qs) (tables (db fallback qs) (model qs)).

(** ** What the module imports *)

Inductive Serializer :=
| DocketSerializer | CourtSerializer | OpinionClusterSerializer
| OpinionSerializer | SearchResultSerializer_
| OpinionsCitedSerializer | DocketEntrySerializer | RECAPDocumentSerializer
| TagSerializer | OriginalCourtInformationSerializer.

Inductive Filter :=
| DocketFilter | CourtFilter | OpinionClusterFilter | OpinionFilter
| OpinionsCitedFilter | DocketEntryFilter | RECAPDocumentFilter.

Inductive Permission := RECAPUsersReadOnly | AllowAny.

(** The handler methods a router looks for on a viewset. *)
Inductive Action :=
| act_list | act_retrieve | act_create | act_update | act_partial_update
| act_destroy.

#[global] Instance Action_eq_dec : EqDecision Action.
Proof. solve_decision. Defined.

Inductive Base := LoggingMixin | CacheListMixin | ModelViewSet | ViewSet.

#[global] Instance Base_eq_dec : EqDecision Base.
Proof. solve_decision. Defined.

(** Values of [cl.api] and [cl.search.models] that this module reads and
    whose definitions lie outside it: the alias [get_api_read_db()] returns
    for the call at hand, the constant [Court.TESTING_COURT], and the handler
    methods the two mixins of [cl.api.utils] define. *)
Record Imports := {
  get_api_read_db : string;
  TESTING_COURT : string;
  LoggingMixin_methods : list Action;
  CacheListMixin_methods : list Action;
}.

(** ** Class bodies *)

(** The body of a viewset class: its bases in order, the class attributes
    ([None] when the body does not assign the attribute), its [get_queryset]
    method if it defines one, and the handler methods it defines itself. *)
Record ViewSetClass := {
  name : string;
  bases : list Base;
  permission_classes : option (list Permission);
  serializer_class : option Serializer;
  filter_class : option Filter;
  ordering_fields : option (list string);
  get_queryset_method : option (Imports -> QuerySet);
  methods : list Action;
}.

Module OriginatingCourtInformationViewSet.
Definition get_queryset (imp : Imports) : QuerySet :=
  all (using_ (get_api_read_db imp) (objects OriginatingCourtInformation)).

Definition cls : ViewSetClass :=
  {| name := "OriginatingCourtInformationViewSet";
     bases := [ModelViewSet];
     permission_classes := None;
     serializer_class := Some OriginalCourtInformationSerializer;
     filter_class := None;
     ordering_fields := None;
     get_queryset_method := Some get_queryset;
     methods := [] |}.
End OriginatingCourtInformationViewSet.

Module DocketViewSet.
Definition get_queryset (imp : Imports) : QuerySet :=
  prefetch_related ["panel"; "clusters"; "audio_files"; "tags"]
    (select_related
       ["court"; "assigned_to"; "referred_to";
        "originating_court_information"; "idb_data"]
       (using_ (get_api_read_db imp) (objects Docket))).

Definition cls : ViewSetClass :=
  {| name := "DocketViewSet";
     bases := [LoggingMixin; ModelViewSet];
     permission_classes := None;
     serializer_class := Some DocketSerializer;
     filter_class := Some DocketFilter;
     ordering_fields :=
       Some ["date_created"; "date_modified"; "date_argued";
             "date_reargued"; "date_reargument_denied"; "date_blocked";
             "date_cert_granted"; "date_cert_denied"; "date_filed";
             "date_terminated"; "date_last_filing"];
     get_queryset_method := Some get_queryset;
     methods := [] |}.
End DocketViewSet.

Module DocketEntryViewSet.
Definition get_queryset (imp : Imports) : QuerySet :=
  order_by []
    (prefetch_related ["recap_documents"; "recap_documents__tags"; "tags"]
       (select_related ["docket"]
          (using_ (get_api_read_db imp) (objects DocketEntry)))).

Definition cls : ViewSetClass :=
  {| name := "DocketEntryViewSet";
     bases := [LoggingMixin; ModelViewSet];
     permission_classes := Some [RECAPUsersReadOnly];
     serializer_class := Some DocketEntrySerializer;
     filter_class := Some DocketEntryFilter;
     ordering_fields := Some ["date_created"; "date_modified"; "date_filed"];
     get_queryset_method := Some get_queryset;
     methods := [] |}.
End DocketEntryViewSet.

Module RECAPDocumentViewSet.
Definition get_queryset (imp : Imports) : QuerySet :=
  order_by []
    (prefetch_related ["tags"]
       (select_related ["docket_entry"; "docket_entry__docket"]
          (using_ (get_api_read_db imp) (objects RECAPDocument)))).

Definition cls : ViewSetClass :=
  {| name := "RECAPDocumentViewSet";
     bases := [LoggingMixin; CacheListMixin; ModelViewSet];
     permission_classes := Some [RECAPUsersReadOnly];
     serializer_class := Some RECAPDocumentSerializer;
     filter_class := Some RECAPDocumentFilter;
     ordering_fields := Some ["date_created"; "date_modified"; "date_upload"];
     get_queryset_method := Some get_queryset;
     methods := [] |}.
End RECAPDocumentViewSet.

Module CourtViewSet.
Definition get_queryset (imp : Imports) : QuerySet :=
  exclude "jurisdiction" (PyStr (TESTING_COURT imp))
    (using_ (get_api_read_db imp) (objects Court)).

Definition cls : ViewSetClass :=
  {| name := "CourtViewSet";
     bases := [LoggingMixin; ModelViewSet];
     permission_classes := None;
     serializer_class := Some CourtSerializer;
     filter_class := Some CourtFilter;
     ordering_fields :=
       Some ["date_modified"; "position"; "start_date"; "end_date"];
     get_queryset_method := Some get_queryset;
     methods := [] |}.
End CourtViewSet.

Module OpinionClusterViewSet.
Definition get_queryset (imp : Imports) : QuerySet :=
  prefetch_related
    ["sub_opinions"; "panel"; "non_participating_judges"; "citations"]
    (using_ (get_api_read_db imp) (objects OpinionCluster)).

Definition cls : ViewSetClass :=
  {| name := "OpinionClusterViewSet";
     bases := [LoggingMixin; ModelViewSet];
     permission_classes := None;
     serializer_class := Some OpinionClusterSerializer;
     filter_class := Some OpinionClusterFilter;
     ordering_fields :=
       Some ["date_created"; "date_modified"; "date_filed";
             "citation_count"; "date_blocked"];
     get_queryset_method := Some get_queryset;
     methods := [] |}.
End OpinionClusterViewSet.

Module OpinionViewSet.
Definition get_queryset (imp : Imports) : QuerySet :=
  prefetch_related ["opinions_cited"; "joined_by"]
    (select_related ["cluster"; "author"]
       (using_ (get_api_read_db imp) (objects Opinion))).

Definition cls : ViewSetClass :=
  {| name := "OpinionViewSet";
     bases := [LoggingMixin; ModelViewSet];
     permission_classes := None;
     serializer_class := Some OpinionSerializer;
     filter_class := Some OpinionFilter;
     ordering_fields := Some ["id"; "date_created"; "date_modified"];
     get_queryset_method := Some get_queryset;
     methods := [] |}.
End OpinionViewSet.

Module OpinionsCitedViewSet.
Definition get_queryset (imp : Imports) : QuerySet :=
  all (using_ (get_api_read_db imp) (objects OpinionsCited)).

Definition cls : ViewSetClass :=
  {| name := "OpinionsCitedViewSet";
     bases := [LoggingMixin; ModelViewSet];
     permission_classes := None;
     serializer_class := Some OpinionsCitedSerializer;
     filter_class := Some OpinionsCitedFilter;
     ordering_fields := None;
     get_queryset_method := Some get_queryset;
     methods := [] |}.
End OpinionsCitedViewSet.

Module TagViewSet.
Definition get_queryset (imp : Imports) : QuerySet :=
  all (using_ (get_api_read_db imp) (objects Tag)).

Definition cls : ViewSetClass :=
  {| name := "TagViewSet";
     bases := [LoggingMixin; ModelViewSet];
     permission_classes := Some [RECAPUsersReadOnly];
     serializer_class := Some TagSerializer;
     filter_class := None;
     ordering_fields := None;
     get_queryset_method := Some get_queryset;
     methods := [] |}.
End TagViewSet.

(** ** The search endpoint: requests, forms, responses *)

(** [request.GET]: the query string as key/value pairs, in order. *)
Abbreviation QueryDict := (list (string * string)).

Record Request := { GET : QueryDict }.

(** A bound form after validation has run: [is_valid()], [cleaned_data]
    and [errors] (field name to messages). *)
Record Form := {
  is_valid : bool;
  cleaned_data : gmap string PyVal;
  errors : gmap string (list string);
}.

(** [rest_framework.status] *)
Definition HTTP_200_OK : Z := 200.
Definition HTTP_400_BAD_REQUEST : Z := 400.

(** The kinds of object the handler receives from its collaborators and
    hands on without looking inside. *)
Class SearchTypes := {
  ObjectList : Type;  (* what [api_utils.get_object_list] returns *)
  Schema : Type;      (* [sl.conn.schema] *)
  Page : Type;        (* the results of one page *)
  Data : Type;        (* [serializer.data] *)
  Paginator : Type;   (* the state of a [PageNumberPagination] object *)
  Payload : Type;     (* the body a paginator builds around the data *)
  Exc : Type;         (* what collaborators raise *)
}.

Section search_endpoint.
Context `{SearchTypes}.

Inductive Body :=
| Errors (e : gmap string (list string))
| Content (p : Payload).

(** [response.Response(data, status=...)] *)
Record Response := { data : Body; status_code : Z }.

Inductive Exception :=
| KeyError (key : string)
| Raised (e : Exc).

Inductive Outcome (A : Type) :=
| Returns (a : A)
| Raises (e : Exception).
#[global] Arguments Returns {A} a.
#[global] Arguments Raises {A} e.

(** The calls the handler makes, with their arguments. *)
Inductive Call :=
| SearchForm_call (query : QueryDict)
| is_valid_call (form : Form)
| get_object_list_call (request : Request) (cd : gmap string PyVal)
    (paginator : Paginator)
| paginate_queryset_call (paginator : Paginator) (sl : ObjectList)
    (request : Request)
| SearchResultSerializer_call (result_page : Page) (many : bool)
    (schema : Schema)
| get_paginated_response_call (paginator : Paginator) (serialized : Data).

(** A computation logs the calls it makes and ends by returning or by
    raising; after a raise nothing more runs. *)
Definition M (A : Type) : Type := list Call * Outcome A.

#[global] Instance M_ret : MRet M := fun A a => ([], Returns a).

#[global] Instance M_bind : MBind M := fun A B k m =>
  match m with
  | (log, Returns a) => let '(log', r) := k a in ((log ++ log')%list, r)
  | (log, Raises e) => (log, Raises e)
  end.

Definition call {A} (c : Call) (result : Outcome A) : M A := ([c], result).

Definition calls {A} (m : M A) : list Call := m.1.
Definition outcome {A} (m : M A) : Outcome A := m.2.

(** [d[key]] *)
Definition getitem (d : gmap string PyVal) (key : string) : M PyVal :=
  match d !! key with
  | Some v => mret v
  | None => ([], Raises (KeyError key))
  end.

(** The collaborators of the handler.  The paginator is one object
    shared by three calls, and [paginate_queryset] stores the page on
    it: its state is passed from call to call.  A form, an object list and
    a request are read after they were handed out only through the
    attributes below, so they are passed as values. *)
Class Collaborators := {
  SearchForm : QueryDict -> Form;
  PageNumberPagination : Paginator;
  get_object_list :
    Request -> gmap string PyVal -> Paginator ->
    Outcome (ObjectList * Paginator);
  paginate_queryset :
    Paginator -> ObjectList -> Request -> Outcome (Page * Paginator);
  conn_schema : ObjectList -> Schema;
  SearchResultSerializer : Page -> bool -> Schema -> Outcome Data;
  get_paginated_response : Paginator -> Data -> Response;
}.
End search_endpoint.

Module SearchViewSet.
Section handler.
Context `{Collaborators}.

Definition list (request : Request) : M Response :=
  search_form ← call (SearchForm_call (GET request))
                     (Returns (SearchForm (GET request)));
  valid ← call (is_valid_call search_form)
               (Returns (is_valid search_form));
  if (valid : bool) then
    let cd := cleaned_data search_form in
    q ← getitem cd "q";
    let cd := if py_eq q (PyStr "") then <["q" := PyStr "*"]> cd else cd in
    let paginator := PageNumberPagination in
    '(sl, paginator) ←
      call (get_object_list_call request cd paginator)
           (get_object_list request cd paginator);
    '(result_page, paginator) ←
      call (paginate_queryset_call paginator sl request)
           (paginate_queryset paginator sl request);
    serialized ←
      call (SearchResultSerializer_call result_page true (conn_schema sl))
           (SearchResultSerializer result_page true (conn_schema sl));
    call (get_paginated_response_call paginator serialized)
         (Returns (get_paginated_response paginator serialized))
  else
    (* Invalid search. *)
    mret {| data := Errors (errors search_form);
            status_code := HTTP_400_BAD_REQUEST |}.
End handler.

Definition cls : ViewSetClass :=
  {| name := "SearchViewSet";
     bases := [LoggingMixin; ViewSet];
     permission_classes := Some [AllowAny];
     serializer_class := None;
     filter_class := None;
     ordering_fields := None;
     get_queryset_method := None;
     methods := [act_list] |}.
End SearchViewSet.

(** The viewsets of the module, in the order of the file. *)
Definition viewsets : list ViewSetClass :=
  [ OriginatingCourtInformationViewSet.cls;
    DocketViewSet.cls;
    DocketEntryViewSet.cls;
    RECAPDocumentViewSet.cls;
    CourtViewSet.cls;
    OpinionClusterViewSet.cls;
    OpinionViewSet.cls;
    OpinionsCitedViewSet.cls;
    TagViewSet.cls;
    SearchViewSet.cls ].

(** ** What the framework does with a class body *)

(** The handler methods a base class brings: [viewsets.ModelViewSet] is the
    five model mixins over [GenericViewSet], [viewsets.ViewSet] has none. *)
Definition base_methods (imp : Imports) (b : Base) : list Action :=
  match b with
  | LoggingMixin => LoggingMixin_methods imp
  | CacheListMixin => CacheListMixin_methods imp
  | ModelViewSet =>
      [act_create; act_retrieve; act_update; act_partial_update;
       act_destroy; act_list]
  | ViewSet => []
  end.

(** The handler methods found on a class: its own and its bases'. *)
Definition handlers (imp : Imports) (v : ViewSetClass) : list Action :=
  methods v ++ concat (map (base_methods imp) (bases v)).

(** What a filter backend or an object lookup does to the queryset it is
    given: it adds conditions or an ordering. *)
Inductive Refinement :=
| refine_filter (field : string) (value : PyVal)
| refine_exclude (field : string) (value : PyVal)
| refine_order_by (fields : list string).

Definition refine (qs : QuerySet) (r : Refinement) : QuerySet :=
  match r with
  | refine_filter f v => filter_by f v qs
  | refine_exclude f v => exclude f v qs
  | refine_order_by fs => order_by fs qs
  end.

(** [GenericAPIView.filter_queryset]: every backend in turn. *)
Definition filter_queryset (backends : list Refinement) (qs : QuerySet)
    : QuerySet :=
  fold_left refine backends qs.

(** The rows a [list] request pages through. *)
Definition list_rows (tables : string -> Model -> list Row) (fallback : string)
    (backends : list Refinement) (queryset : QuerySet) : list Row :=
  evaluate tables fallback (filter_queryset backends queryset).

(** [GenericAPIView.get_object], which [retrieve] serves: the first row
    with the requested key among the filtered rows, if any. *)
Definition get_object (tables : string -> Model -> list Row) (fallback : string)
    (backends : list Refinement) (queryset : QuerySet) (pk : PyVal)
    : option Row :=
  head (evaluate tables fallback
          (filter_by "pk" pk (filter_queryset backends queryset))).

(** ** What a class body selects *)

Definition has_serializer (v : ViewSetClass) : bool :=
  bool_decide (is_Some (serializer_class v)).
Definition has_filter (v : ViewSetClass) : bool :=
  bool_decide (is_Some (filter_class v)).
Definition has_permissions (v : ViewSetClass) : bool :=
  bool_decide (is_Some (permission_classes v)).
Definition has_ordering_fields (v : ViewSetClass) : bool :=
  bool_decide (is_Some (ordering_fields v)).
Definition has_queryset (v : ViewSetClass) : bool :=
  bool_decide (is_Some (get_queryset_method v)).

(** The queryset carries a [select_related] or [prefetch_related] hint. *)
Definition has_eager_loading (imp : Imports) (v : ViewSetClass) : bool :=
  match get_queryset_method v with
  | Some get_queryset =>
      let qs := get_queryset imp in
      negb (bool_decide (select_related_fields qs = []) &&
            bool_decide (prefetch_related_lookups qs = []))
  | None => false
  end.

(** A model viewset: one of the classes that extend [ModelViewSet]. *)
Definition is_model_viewset (v : ViewSetClass) : bool :=
  bool_decide (ModelViewSet ∈ bases v).

Definition names_where (P : ViewSetClass -> bool) : list string :=
  map name (List.filter P viewsets).

(** The queryset of the class ends in [order_by()]: no ordering is left. *)
Definition has_ordering_removed (imp : Imports) (v : ViewSetClass) : bool :=
  match get_queryset_method v with
  | Some get_queryset => bool_decide (ordering (get_queryset imp) = Some [])
  | None => false
  end.

(** The queryset of the class keeps the default ordering of its model. *)
Definition has_default_ordering (imp : Imports) (v : ViewSetClass) : bool :=
  match get_queryset_method v with
  | Some get_queryset => bool_decide (ordering (get_queryset imp) = None)
  | None => false
  end.

(** The model behind the queryset of each class that defines one. *)
Definition served_models (imp : Imports) : list (string * Model) :=
  omap (fun v => get_queryset ← get_queryset_method v;
                 Some (name v, model (get_queryset imp))) viewsets.

(** ** Reading a run of the handler *)

Section search_reading.
Context `{Collaborators}.

(** The cleaned data as the handler hands it on, after lines 161-162. *)
Definition handed_on (cd : gmap string PyVal) (q : PyVal) : gmap string PyVal :=
  if py_eq q (PyStr "") then <["q" := PyStr "*"]> cd else cd.

(** [serialized_page request cd p d]: the object list built for [cd], cut
    to a page by the paginator and serialized, is [d], and the paginator
    is left in state [p]. *)
Definition serialized_page (request : Request) (cd : gmap string PyVal)
    (p : Paginator) (d : Data) : Prop :=
  exists sl p1 result_page,
    get_object_list request cd PageNumberPagination = Returns (sl, p1) /\
    paginate_queryset p1 sl request = Returns (result_page, p) /\
    SearchResultSerializer result_page true (conn_schema sl) = Returns d.

(** [collaborator_raises request cd e]: the first collaborator that does
    not return raises [e]. *)
Definition collaborator_raises (request : Request) (cd : gmap string PyVal)
    (e : Exception) : Prop :=
  get_object_list request cd PageNumberPagination = Raises e \/
  exists sl p1,
    get_object_list request cd PageNumberPagination = Returns (sl, p1) /\
    (paginate_queryset p1 sl request = Raises e \/
     exists result_page p2,
       paginate_queryset p1 sl request = Returns (result_page, p2) /\
       SearchResultSerializer result_page true (conn_schema sl) = Raises e).

(** The arguments of the calls to [get_object_list] in a log. *)
Definition get_object_list_args (log : list Call)
    : list (Request * gmap string PyVal * Paginator) :=
  omap (fun c => match c with
                 | get_object_list_call r cd p => Some (r, cd, p)
                 | _ => None
                 end) log.



End search_reading.

(** ** A concrete set of collaborators

    A small world on which the handler runs: a form with the fields [q] and
    [type], an index of five documents, and a paginator that follows
    [PageNumberPagination] with two results a page (a page number that is
    not an integer within [1 .. num_pages] is refused with [NotFound]). *)
Module Sample.
(** [QueryDict.get(key, default)]: the last value given for the key. *)
Fixpoint qd_get (key fallback : string) (q : QueryDict) : string :=
  match q with
  | [] => fallback
  | (k, v) :: q' => qd_get key (if String.eqb k key then v else fallback) q'
  end.

Definition digit (c : Ascii.ascii) : option nat :=
  let n := Ascii.nat_of_ascii c in
  if ((48 <=? n) && (n <=? 57))%nat then Some (n - 48) else None.

Fixpoint parse_digits (acc : nat) (s : string) : option nat :=
  match s with
  | EmptyString => Some acc
  | String c s' => d ← digit c; parse_digits (10 * acc + d) s'
  end.

Definition parse_nat (s : string) : option nat :=
  match s with
  | EmptyString => None
  | _ => parse_digits 0 s
  end.

Inductive exc := NotFound.

Record paginator := {
  page_size : nat;
  page : option (nat * nat);  (* page number, number of pages *)
  count : nat;
}.

Record payload := {
  payload_count : nat;
  next : option nat;
  previous : option nat;
  results : list string;
}.

#[export] Instance types : SearchTypes :=
  {| ObjectList := list string;
     Schema := string;
     Page := list string;
     Data := list string;
     Paginator := paginator;
     Payload := payload;
     Exc := exc |}.

Definition type_choices : list string := ["o"; "r"; "oa"; "p"].

Definition form (query : QueryDict) : Form :=
  let q := qd_get "q" "" query in
  let type := qd_get "type" "o" query in
  if bool_decide (type ∈ type_choices) then
    {| is_valid := true;
       cleaned_data := <["type" := PyStr type]> {["q" := PyStr q]};
       errors := ∅ |}
  else
    {| is_valid := false;
       cleaned_data := {["q" := PyStr q]};
       errors := {["type" := ["Select a valid choice."]]} |}.

Definition index : list string := ["a"; "b"; "c"; "d"; "e"].

Definition object_list (request : Request) (cd : gmap string PyVal)
    (p : paginator) : Outcome (list string * paginator) :=
  match cd !! "q" with
  | Some (PyStr q) =>
      Returns (if String.eqb q "*" then index
               else List.filter (String.eqb q) index, p)
  | _ => Raises (KeyError "q")
  end.

Definition num_pages (hits per_page : nat) : nat :=
  Nat.max 1 ((hits + per_page - 1) / per_page).

Definition cut_page (p : paginator) (sl : list string) (request : Request)
    : Outcome (list string * paginator) :=
  match parse_nat (qd_get "page" "1" (GET request)) with
  | Some n =>
      let pages := num_pages (length sl) (page_size p) in
      if ((1 <=? n) && (n <=? pages))%nat then
        Returns (take (page_size p) (drop ((n - 1) * page_size p) sl),
                 {| page_size := page_size p;
                    page := Some (n, pages);
                    count := length sl |})
      else Raises (Raised NotFound)
  | None => Raises (Raised NotFound)
  end.

Definition paginated_response (p : paginator) (serialized : list string)
    : Response :=
  {| data :=
       Content
         {| payload_count := count p;
            next := '(n, pages) ← page p;
                    if (n <? pages)%nat then Some (n + 1) else None;
            previous := '(n, _) ← page p;
                        if (1 <? n)%nat then Some (n - 1) else None;
            results := serialized |};
     status_code := HTTP_200_OK |}.

#[export] Instance world : Collaborators :=
  {| SearchForm := form;
     PageNumberPagination := {| page_size := 2; page := None; count := 0 |};
     get_object_list := object_list;
     paginate_queryset := cut_page;
     conn_schema := fun _ => "opinion";
     SearchResultSerializer := fun result_page _ _ => Returns result_page;
     get_paginated_response := paginated_response |}.

(** The handler on the sample collaborators, for a query string. *)
Definition run (query : QueryDict) : M Response :=
  SearchViewSet.list {| GET := query |}.

Definition scotus : gmap string PyVal :=
  <["jurisdiction" := PyStr "F"]> {["id" := PyStr "scotus"]}.

Definition test_court : gmap string PyVal :=
  <["jurisdiction" := PyStr "T"]> {["id" := PyStr "test"]}.

(** Two servers: the replica holds a federal court and a testing court,
    the default server holds the testing court only. *)
Definition tables (alias : string) (m : Model) : list (gmap string PyVal) :=
  match m with
  | Court => if String.eqb alias "replica" then [scotus; test_court]
             else [test_court]
  | _ => []
  end.

Definition imports : Imports :=
  {| get_api_read_db := "replica";
     TESTING_COURT := "T";
     LoggingMixin_methods := [];
     CacheListMixin_methods := [act_list] |}.

(** The same imports on a site whose read database is the default one. *)
Definition imports_on_default : Imports :=
  {| get_api_read_db := DEFAULT_DB_ALIAS;
     TESTING_COURT := "T";
     LoggingMixin_methods := [];
     CacheListMixin_methods := [act_list] |}.
End Sample.



(** * Properties *)

Section search_facts.
Context `{Collaborators}.

Lemma py_eq_empty_true q : py_eq q (PyStr "") = true <-> q = PyStr "".
Proof.
  destruct q; simpl; try (split; [discriminate | discriminate]).
  rewrite bool_decide_eq_true. split; congruence.
Qed.

Lemma py_eq_empty_false q : py_eq q (PyStr "") = false <-> q <> PyStr "".
Proof.
  rewrite <- py_eq_empty_true. destruct (py_eq q (PyStr "")); split; congruence.
Qed.

Lemma handed_on_q cd q :
  cd !! "q" = Some q -> handed_on cd q !! "q" <> Some (PyStr "").
Proof.
  intros Hq. unfold handed_on.
  destruct (py_eq q (PyStr "")) eqn:E.
  - rewrite lookup_insert_eq. discriminate.
  - rewrite Hq. apply py_eq_empty_false in E. congruence.
Qed.

(** The invalid branch. *)
Lemma list_invalid request :
  is_valid (SearchForm (GET request)) = false ->
  SearchViewSet.list request =
    ([SearchForm_call (GET request);
      is_valid_call (SearchForm (GET request))],
     Returns {| data := Errors (errors (SearchForm (GET request)));
                status_code := HTTP_400_BAD_REQUEST |}).
Proof.
  intros Hv. unfold SearchViewSet.list, call, mbind, M_bind, mret, M_ret.
  simpl. rewrite Hv. reflexivity.
Qed.

(** The valid branch when the cleaned data has no ['q']. *)
Lemma list_valid_no_q request :
  is_valid (SearchForm (GET request)) = true ->
  cleaned_data (SearchForm (GET request)) !! "q" = None ->
  SearchViewSet.list request =
    ([SearchForm_call (GET request);
      is_valid_call (SearchForm (GET request))],
     Raises (KeyError "q")).
Proof.
  intros Hv Hq. unfold SearchViewSet.list, call, getitem, mbind, M_bind.
  simpl. rewrite Hv, Hq. reflexivity.
Qed.

(** The valid branch, step by step. *)
Lemma list_valid request q :
  let form := SearchForm (GET request) in
  let cd := handed_on (cleaned_data form) q in
  is_valid form = true ->
  cleaned_data form !! "q" = Some q ->
  SearchViewSet.list request =
    let c1 := SearchForm_call (GET request) in
    let c2 := is_valid_call form in
    let c3 := get_object_list_call request cd PageNumberPagination in
    match get_object_list request cd PageNumberPagination with
    | Raises e => ([c1; c2; c3], Raises e)
    | Returns (sl, p1) =>
        let c4 := paginate_queryset_call p1 sl request in
        match paginate_queryset p1 sl request with
        | Raises e => ([c1; c2; c3; c4], Raises e)
        | Returns (result_page, p2) =>
            let c5 := SearchResultSerializer_call result_page true
                        (conn_schema sl) in
            match SearchResultSerializer result_page true (conn_schema sl) with
            | Raises e => ([c1; c2; c3; c4; c5], Raises e)
            | Returns d =>
                ([c1; c2; c3; c4; c5; get_paginated_response_call p2 d],
                 Returns (get_paginated_response p2 d))
            end
        end
    end.
Proof.
  intros form cd Hv Hq. subst form cd.
  unfold SearchViewSet.list, call, getitem, handed_on, mbind, M_bind, mret, M_ret.
  simpl. rewrite Hv, Hq. simpl.
  destruct (get_object_list _ _ _) as [[sl p1]|e]; [|reflexivity].
  destruct (paginate_queryset _ _ _) as [[result_page p2]|e]; [|reflexivity].
  destruct (SearchResultSerializer _ _ _) as [d|e]; reflexivity.
Qed.
(** What a valid search with a ['q'] ends in, read off [list_valid]. *)
Lemma list_valid_returns request q r :
  let form := SearchForm (GET request) in
  is_valid form = true ->
  cleaned_data form !! "q" = Some q ->
  outcome (SearchViewSet.list request) = Returns r <->
  exists p d,
    serialized_page request (handed_on (cleaned_data form) q) p d /\
    r = get_paginated_response p d.
Proof.
  intros form Hv Hq. rewrite (list_valid request q Hv Hq).
  unfold serialized_page. fold form. cbv zeta.
  destruct (get_object_list _ _ _) as [[sl p1]|e0].
  2:{ split; [discriminate|]. intros (?&?&(?&?&?&?&_)&_). discriminate. }
  destruct (paginate_queryset _ _ _) as [[result_page p2]|e0] eqn:Hp.
  2:{ split; [discriminate|].
      intros (?&?&(?&?&?&Hg&Hp'&_)&_). inversion Hg; subst. congruence. }
  destruct (SearchResultSerializer _ _ _) as [d|e0] eqn:Hs.
  2:{ split; [discriminate|].
      intros (?&?&(?&?&?&Hg&Hp'&Hs')&_). inversion Hg; subst.
      rewrite Hp in Hp'. inversion Hp'; subst. congruence. }
  unfold outcome; simpl. split.
  - intros [= <-]. exists p2, d. split; [|reflexivity].
    exists sl, p1, result_page. auto.
  - intros (p&d'&(sl'&p1'&pg'&Hg&Hp'&Hs')&->).
    inversion Hg; subst. rewrite Hp in Hp'. inversion Hp'; subst.
    rewrite Hs in Hs'. inversion Hs'; subst. reflexivity.
Qed.

Lemma list_valid_raises request q e :
  let form := SearchForm (GET request) in
  is_valid form = true ->
  cleaned_data form !! "q" = Some q ->
  outcome (SearchViewSet.list request) = Raises e <->
  collaborator_raises request (handed_on (cleaned_data form) q) e.
Proof.
  intros form Hv Hq. rewrite (list_valid request q Hv Hq).
  unfold collaborator_raises. fold form. cbv zeta.
  destruct (get_object_list _ _ _) as [[sl p1]|e0].
  2:{ unfold outcome; simpl. split.
      - intros [= <-]. left. reflexivity.
      - intros [[= <-]|(?&?&?&_)]; [reflexivity|discriminate]. }
  destruct (paginate_queryset _ _ _) as [[result_page p2]|e0] eqn:Hp.
  2:{ unfold outcome; simpl. split.
      - intros [= <-]. right. exists sl, p1. split; [reflexivity|].
        left. assumption.
      - intros [?|(?&?&Hg&[Hp'|(?&?&Hp'&_)])]; try discriminate;
          inversion Hg; subst; congruence. }
  destruct (SearchResultSerializer _ _ _) as [d|e0] eqn:Hs.
  - unfold outcome; simpl. split; [discriminate|].
    intros [?|(?&?&Hg&[Hp'|(?&?&Hp'&Hs')])]; try discriminate;
      inversion Hg; subst; [congruence|].
    rewrite Hp in Hp'. inversion Hp'; subst. congruence.
  - unfold outcome; simpl. split.
    + intros [= <-]. right. exists sl, p1. split; [reflexivity|].
      right. exists result_page, p2. auto.
    + intros [?|(?&?&Hg&[Hp'|(?&?&Hp'&Hs')])]; try discriminate;
        inversion Hg; subst; [congruence|].
      rewrite Hp in Hp'. inversion Hp'; subst. congruence.
Qed.


(** The only call to [get_object_list] in a log, if there is one. *)
Lemma list_get_object_list_args request :
  let form := SearchForm (GET request) in
  get_object_list_args (calls (SearchViewSet.list request)) =
    if is_valid form then
      match cleaned_data form !! "q" with
      | Some q => [(request, handed_on (cleaned_data form) q,
                    PageNumberPagination)]
      | None => []
      end
    else [].
Proof.
  intros form. subst form.
  destruct (is_valid (SearchForm (GET request))) eqn:Hv.
  - destruct (cleaned_data (SearchForm (GET request)) !! "q") as [q|] eqn:Hq.
    + rewrite (list_valid request q Hv Hq). cbv zeta.
      destruct (get_object_list _ _ _) as [[sl p1]|e0]; [|reflexivity].
      destruct (paginate_queryset _ _ _) as [[result_page p2]|e0]; [|reflexivity].
      destruct (SearchResultSerializer _ _ _) as [d|e0]; reflexivity.
    + rewrite (list_valid_no_q request Hv Hq). reflexivity.
  - rewrite (list_invalid request Hv). reflexivity.
Qed.

Lemma elem_of_get_object_list_args log r cd p :
  get_object_list_call r cd p ∈ log -> (r, cd, p) ∈ get_object_list_args log.
Proof.
  intros Hin. unfold get_object_list_args. apply list_elem_of_omap.
  exists (get_object_list_call r cd p). split; [assumption|reflexivity].
Qed.
End search_facts.

(** ** The search endpoint *)

Section search_claims.
Context `{Collaborators}.

(** C1 (amended).  For every GET request, [SearchViewSet.list] returns
    the HTTP 400 response whose body is the form's validation errors if
    and only if the form built from the query parameters is invalid.
    When the form is valid, it returns a response exactly when the lookup
    of ['q'] and every collaborator return, and that response is the
    paginator's response around the serialized page of results; when a
    collaborator raises, the handler raises the same exception and returns
    nothing, and so it does with [KeyError] when the cleaned data has no
    ['q'].  (A paginator's response has status 200.) *)
Theorem list_400_iff_invalid
    (paginated_200 :
       forall p d, status_code (get_paginated_response p d) = HTTP_200_OK)
    (request : Request) :
  let form := SearchForm (GET request) in
  let result := outcome (SearchViewSet.list request) in
  (result = Returns {| data := Errors (errors form);
                       status_code := HTTP_400_BAD_REQUEST |}
   <-> is_valid form = false) /\
  (is_valid form = true ->
   (cleaned_data form !! "q" = None -> result = Raises (KeyError "q")) /\
   forall q, cleaned_data form !! "q" = Some q ->
     let cd := handed_on (cleaned_data form) q in
     (forall r, result = Returns r <->
                exists p d, serialized_page request cd p d /\
                            r = get_paginated_response p d) /\
     (forall e, result = Raises e <-> collaborator_raises request cd e)).
Proof.
  intros form result. split.
  - split.
    + intros Hr. destruct (is_valid form) eqn:Hv; [exfalso|reflexivity].
      destruct (cleaned_data form !! "q") as [q|] eqn:Hq.
      * apply (list_valid_returns request q _ Hv Hq) in Hr
          as (p & d & _ & Hr).
        apply (f_equal status_code) in Hr. rewrite paginated_200 in Hr.
        discriminate.
      * subst result. rewrite (list_valid_no_q request Hv Hq) in Hr.
        discriminate.
    + intros Hv. subst result. rewrite (list_invalid request Hv).
      reflexivity.
  - intros Hv. split.
    + intros Hq. subst result. rewrite (list_valid_no_q request Hv Hq).
      reflexivity.
    + intros q Hq cd. split; intros.
      * apply (list_valid_returns request q _ Hv Hq).
      * apply (list_valid_raises request q _ Hv Hq).
Qed.


(** C3.  For every valid search request whose cleaned ['q'] is the empty
    string, [SearchViewSet.list] hands [get_object_list] the cleaned data
    with ['q'] replaced by ['*']; for every valid request with another
    ['q'] it hands the cleaned data on unchanged; and no call to
    [get_object_list] made by the handler, for any request, carries an
    empty ['q']. *)
Theorem list_replaces_empty_q (request : Request) :
  let form := SearchForm (GET request) in
  let log := calls (SearchViewSet.list request) in
  (is_valid form = true ->
   cleaned_data form !! "q" = Some (PyStr "") ->
   get_object_list_args log =
     [(request, <["q" := PyStr "*"]> (cleaned_data form),
       PageNumberPagination)]) /\
  (forall q, is_valid form = true ->
             cleaned_data form !! "q" = Some q ->
             q <> PyStr "" ->
   get_object_list_args log =
     [(request, cleaned_data form, PageNumberPagination)]) /\
  (forall r cd p, get_object_list_call r cd p ∈ log ->
                  cd !! "q" <> Some (PyStr "")).
Proof.
  intros form log.
  pose proof (list_get_object_list_args request) as Hargs.
  cbv zeta in Hargs. fold form in Hargs. fold log in Hargs.
  split; [|split].
  - intros Hv Hq. rewrite Hargs, Hv, Hq. reflexivity.
  - intros q Hv Hq Hne. rewrite Hargs, Hv, Hq. unfold handed_on.
    apply py_eq_empty_false in Hne. rewrite Hne. reflexivity.
  - intros r cd p Hin. apply elem_of_get_object_list_args in Hin.
    rewrite Hargs in Hin. destruct (is_valid form).
    + destruct (cleaned_data form !! "q") as [q|] eqn:Hq.
      * apply list_elem_of_singleton in Hin. inversion Hin; subst.
        apply handed_on_q. exact Hq.
      * apply elem_of_nil in Hin. contradiction.
    + apply elem_of_nil in Hin. contradiction.
Qed.

(** C9.  The only handler method defined in this file is
    [SearchViewSet.list], and the only response it builds itself is the
    400 on form validation failure: whatever it returns is either that
    response, for an invalid form, or the paginator's response, for a valid
    one.  It has no error branch of its own besides: for an invalid form it
    never raises, and for a valid one it raises exactly the exceptions its
    collaborators raise (not found, a failing serializer), unchanged and
    unhandled; the one other exception is the [KeyError] of indexing
    cleaned data that has no ['q'], which a form with a [q] field never
    produces. *)
Theorem only_error_response_is_search_400 (request : Request) :
  let form := SearchForm (GET request) in
  let result := outcome (SearchViewSet.list request) in
  (forall v, v ∈ viewsets -> methods v <> [] ->
             v = SearchViewSet.cls /\ methods v = [act_list]) /\
  (forall r, result = Returns r ->
     (is_valid form = false /\
      r = {| data := Errors (errors form);
             status_code := HTTP_400_BAD_REQUEST |}) \/
     (is_valid form = true /\ exists p d, r = get_paginated_response p d)) /\
  (forall q e, is_valid form = true ->
               cleaned_data form !! "q" = Some q ->
               collaborator_raises request (handed_on (cleaned_data form) q) e ->
               result = Raises e) /\
  (forall e, result = Raises e ->
     is_valid form = true /\
     ((cleaned_data form !! "q" = None /\ e = KeyError "q") \/
      exists q, cleaned_data form !! "q" = Some q /\
                collaborator_raises request
                  (handed_on (cleaned_data form) q) e)).
Proof.
  intros form result. split; [|split; [|split]].
  - intros v Hin Hm. unfold viewsets in Hin.
    repeat (apply elem_of_cons in Hin as [->|Hin]);
      try (exfalso; apply Hm; reflexivity).
    + split; reflexivity.
    + apply elem_of_nil in Hin. contradiction.
  - intros r Hr. destruct (is_valid form) eqn:Hv.
    + right. split; [reflexivity|].
      destruct (cleaned_data form !! "q") as [q|] eqn:Hq.
      * apply (list_valid_returns request q _ Hv Hq) in Hr
          as (p & d & _ & ->). eauto.
      * subst result. rewrite (list_valid_no_q request Hv Hq) in Hr.
        discriminate.
    + left. split; [reflexivity|]. subst result.
      rewrite (list_invalid request Hv) in Hr. inversion Hr. reflexivity.
  - intros q e Hv Hq Hc. apply (list_valid_raises request q _ Hv Hq).
    exact Hc.
  - intros e Hr. destruct (is_valid form) eqn:Hv.
    + split; [reflexivity|].
      destruct (cleaned_data form !! "q") as [q|] eqn:Hq.
      * right. exists q. split; [reflexivity|].
        apply (list_valid_raises request q _ Hv Hq). exact Hr.
      * left. split; [reflexivity|]. subst result.
        rewrite (list_valid_no_q request Hv Hq) in Hr.
        inversion Hr. reflexivity.
    + subst result. rewrite (list_invalid request Hv) in Hr. discriminate.
Qed.
End search_claims.

(** ** Querysets *)

Lemma py_eq_refl v : py_eq v v = true.
Proof. destruct v; simpl; try reflexivity; apply bool_decide_eq_true; reflexivity. Qed.

Lemma matches_lookup (row : Row) field value :
  matches row (field, value) = false -> row !! field <> Some value.
Proof.
  unfold matches; simpl. intros Hm Hl. rewrite Hl, py_eq_refl in Hm.
  discriminate.
Qed.

Lemma elem_of_evaluate tables fallback qs (row : Row) :
  row ∈ evaluate tables fallback qs <->
  row ∈ tables (db fallback qs) (model qs) /\ selects qs row = true.
Proof.
  unfold evaluate. rewrite !list_elem_of_In. apply filter_In.
Qed.

(** A row that a queryset returns meets none of its exclusions. *)
Lemma evaluate_excludes tables fallback qs (row : Row) cond :
  row ∈ evaluate tables fallback qs -> cond ∈ excludes qs ->
  matches row cond = false.
Proof.
  intros [_ Hs]%elem_of_evaluate Hc. unfold selects in Hs.
  apply andb_true_iff in Hs as [_ Hs]. apply negb_true_iff in Hs.
  destruct (matches row cond) eqn:Hm; [|reflexivity].
  assert (existsb (matches row) (excludes qs) = true) as Hex; [|congruence].
  apply existsb_exists. exists cond. split; [|assumption].
  apply list_elem_of_In. assumption.
Qed.

(** Refining a queryset never lifts an exclusion. *)
Lemma refine_excludes qs r cond :
  cond ∈ excludes qs -> cond ∈ excludes (refine qs r).
Proof.
  intros Hc. destruct r; simpl; try assumption.
  apply elem_of_app. left. assumption.
Qed.

Lemma filter_queryset_excludes backends qs cond :
  cond ∈ excludes qs -> cond ∈ excludes (filter_queryset backends qs).
Proof.
  unfold filter_queryset. revert qs.
  induction backends as [|r backends IH]; intros qs Hc; simpl.
  - assumption.
  - apply IH, refine_excludes, Hc.
Qed.

(** C7.  For every invocation, the queryset [CourtViewSet.get_queryset]
    returns yields exactly the courts of the read database whose
    jurisdiction is not [Court.TESTING_COURT]; whatever filter backends
    refine it, no court with that jurisdiction is among the rows a list
    request pages through, nor is one ever the object of a retrieve. *)
Theorem court_queryset_excludes_testing_courts
    (imp : Imports) (tables : string -> Model -> list Row) (fallback : string) :
  let testing := PyStr (TESTING_COURT imp) in
  let queryset := CourtViewSet.get_queryset imp in
  evaluate tables fallback queryset =
    List.filter (fun row => negb (matches row ("jurisdiction", testing)))
      (tables (get_api_read_db imp) Court) /\
  (forall row : Row, row ∈ evaluate tables fallback queryset ->
                     row !! "jurisdiction" <> Some testing) /\
  (forall backends (row : Row),
     row ∈ list_rows tables fallback backends queryset ->
     row !! "jurisdiction" <> Some testing) /\
  (forall backends pk (row : Row),
     get_object tables fallback backends queryset pk = Some row ->
     row !! "jurisdiction" <> Some testing).
Proof.
  intros testing queryset.
  assert (("jurisdiction", testing) ∈ excludes queryset) as Hex.
  { simpl. apply list_elem_of_singleton. reflexivity. }
  split; [|split; [|split]].
  - unfold evaluate, selects. simpl. apply filter_ext. intros row.
    rewrite orb_false_r. reflexivity.
  - intros row Hin. apply matches_lookup.
    apply (evaluate_excludes _ _ _ _ _ Hin Hex).
  - intros backends row Hin. apply matches_lookup.
    apply (evaluate_excludes _ _ _ _ _ Hin).
    apply filter_queryset_excludes, Hex.
  - intros backends pk row Hget. apply matches_lookup.
    unfold get_object in Hget. apply head_Some_elem_of in Hget.
    apply (evaluate_excludes _ _ _ _ _ Hget).
    simpl. apply filter_queryset_excludes, Hex.
Qed.

(** C8 (amended).  Every [get_queryset] method of this file builds its
    queryset with [using(get_api_read_db())]: the alias is set on the
    queryset, so the queryset is evaluated on the database that call
    returns, never on one left to the default routing, and its rows depend
    on no other database.  That database is the default one exactly when
    [get_api_read_db()] returns the default alias. *)
Theorem get_queryset_uses_read_db
    (imp : Imports) (v : ViewSetClass) (get_queryset : Imports -> QuerySet) :
  v ∈ viewsets ->
  get_queryset_method v = Some get_queryset ->
  _db (get_queryset imp) = Some (get_api_read_db imp) /\
  (forall fallback, db fallback (get_queryset imp) = get_api_read_db imp) /\
  (forall tables tables' fallback fallback',
     tables (get_api_read_db imp) = tables' (get_api_read_db imp) ->
     evaluate tables fallback (get_queryset imp) =
     evaluate tables' fallback' (get_queryset imp)) /\
  (forall fallback,
     db fallback (get_queryset imp) = DEFAULT_DB_ALIAS <->
     get_api_read_db imp = DEFAULT_DB_ALIAS).
Proof.
  intros Hin Hm.
  assert (_db (get_queryset imp) = Some (get_api_read_db imp)) as Hdb.
  { unfold viewsets in Hin.
    repeat (apply elem_of_cons in Hin as [->|Hin]);
      try (injection Hm as <-; reflexivity); try discriminate.
    apply elem_of_nil in Hin. contradiction. }
  split; [exact Hdb|]. split; [|split].
  - intros fallback. unfold db. rewrite Hdb. reflexivity.
  - intros tables tables' fallback fallback' Ht.
    unfold evaluate, db. rewrite Hdb. simpl. rewrite Ht. reflexivity.
  - intros fallback. unfold db. rewrite Hdb. reflexivity.
Qed.

(** ** Class bodies *)

(** C6.  Every viewset of this file that serves a model (it defines
    [get_queryset]) extends [ModelViewSet], and the handlers for list,
    retrieve, create, update and delete are all found on it. *)
Theorem model_viewsets_expose_crud (imp : Imports) (v : ViewSetClass) :
  v ∈ viewsets ->
  is_Some (get_queryset_method v) ->
  ModelViewSet ∈ bases v /\
  forall a, a ∈ [act_list; act_retrieve; act_create; act_update; act_destroy] ->
            a ∈ handlers imp v.
Proof.
  intros Hin Hq.
  assert (ModelViewSet ∈ bases v) as Hb.
  { unfold viewsets in Hin.
    repeat (apply elem_of_cons in Hin as [->|Hin]);
      first [ by apply elem_of_nil in Hin
            | by destruct Hq
            | by apply (bool_decide_unpack _) ]. }
  split; [exact Hb|].
  intros a Ha. unfold handlers. apply elem_of_app. right.
  apply list_elem_of_In, in_concat. exists (base_methods imp ModelViewSet).
  split.
  - apply in_map, list_elem_of_In, Hb.
  - apply list_elem_of_In. simpl.
    repeat (apply elem_of_cons in Ha as [->|Ha]);
      first [ by apply elem_of_nil in Ha
            | by apply (bool_decide_unpack _) ].
Qed.

(** C4 (amended).  Of the ten viewsets of this file, the nine model
    viewsets each select a serializer and define a queryset; seven of them
    select a filter class, three of them and the search viewset declare
    permission classes, and five give their queryset eager-loading hints.
    The search viewset selects no serializer, filter class or queryset. *)
Theorem viewset_wiring (imp : Imports) :
  let model_viewsets :=
    ["OriginatingCourtInformationViewSet"; "DocketViewSet";
     "DocketEntryViewSet"; "RECAPDocumentViewSet"; "CourtViewSet";
     "OpinionClusterViewSet"; "OpinionViewSet"; "OpinionsCitedViewSet";
     "TagViewSet"] in
  map name viewsets = (model_viewsets ++ ["SearchViewSet"])%list /\
  names_where is_model_viewset = model_viewsets /\
  names_where has_serializer = model_viewsets /\
  names_where has_queryset = model_viewsets /\
  names_where has_filter =
    ["DocketViewSet"; "DocketEntryViewSet"; "RECAPDocumentViewSet";
     "CourtViewSet"; "OpinionClusterViewSet"; "OpinionViewSet";
     "OpinionsCitedViewSet"] /\
  names_where has_permissions =
    ["DocketEntryViewSet"; "RECAPDocumentViewSet"; "TagViewSet";
     "SearchViewSet"] /\
  names_where (has_eager_loading imp) =
    ["DocketViewSet"; "DocketEntryViewSet"; "RECAPDocumentViewSet";
     "OpinionClusterViewSet"; "OpinionViewSet"].
Proof. repeat split; reflexivity. Qed.

(** C5 (amended).  Of the nine model viewsets of this file, six declare
    both a filter class and ordering fields; [OpinionsCitedViewSet] declares
    a filter class and no ordering fields, and
    [OriginatingCourtInformationViewSet] and [TagViewSet] declare neither.
    None declares ordering fields without a filter class. *)
Theorem model_viewset_filtering_and_ordering :
  names_where (fun v => is_model_viewset v && has_filter v
                        && has_ordering_fields v) =
    ["DocketViewSet"; "DocketEntryViewSet"; "RECAPDocumentViewSet";
     "CourtViewSet"; "OpinionClusterViewSet"; "OpinionViewSet"] /\
  names_where (fun v => is_model_viewset v && has_filter v
                        && negb (has_ordering_fields v)) =
    ["OpinionsCitedViewSet"] /\
  names_where (fun v => is_model_viewset v && negb (has_filter v)
                        && negb (has_ordering_fields v)) =
    ["OriginatingCourtInformationViewSet"; "TagViewSet"] /\
  names_where (fun v => is_model_viewset v && negb (has_filter v)
                        && has_ordering_fields v) = [].
Proof. repeat split; reflexivity. Qed.

(** ** The search endpoint: which calls a run makes, and with what *)

Section search_runs.
Context `{Collaborators}.

Lemma elem_of_get_object_list_args_inv log r cd p :
  (r, cd, p) ∈ get_object_list_args log -> get_object_list_call r cd p ∈ log.
Proof.
  unfold get_object_list_args. intros (c & Hin & Hc)%list_elem_of_omap.
  destruct c; try discriminate. injection Hc as -> -> ->. exact Hin.
Qed.

(** X1.  The handler calls [api_utils.get_object_list] exactly when the
    form is valid and its cleaned data has a ['q'], and then once; for an
    invalid form, or cleaned data without ['q'], it makes no call beyond
    binding and validating the form. *)
Theorem search_backend_reached_iff (request : Request) :
  let form := SearchForm (GET request) in
  let log := calls (SearchViewSet.list request) in
  ((exists r cd p, get_object_list_call r cd p ∈ log) <->
   is_valid form = true /\ is_Some (cleaned_data form !! "q")) /\
  length (get_object_list_args log) <= 1 /\
  (is_valid form = false \/ cleaned_data form !! "q" = None ->
   log = [SearchForm_call (GET request); is_valid_call form]).
Proof.
  intros form log.
  pose proof (list_get_object_list_args request) as Hargs.
  cbv zeta in Hargs. fold form in Hargs. fold log in Hargs.
  split; [|split].
  - split.
    + intros (r & cd & p & Hin%elem_of_get_object_list_args).
      rewrite Hargs in Hin. destruct (is_valid form).
      * destruct (cleaned_data form !! "q"); [by eauto|].
        by apply elem_of_nil in Hin.
      * by apply elem_of_nil in Hin.
    + intros [Hv [q Hq]]. rewrite Hv, Hq in Hargs.
      eexists _, _, _. apply elem_of_get_object_list_args_inv.
      rewrite Hargs. apply list_elem_of_here.
  - rewrite Hargs. destruct (is_valid form); [|simpl; lia].
    destruct (cleaned_data form !! "q"); simpl; lia.
  - intros [Hv|Hq]; subst log.
    + rewrite (list_invalid request Hv). reflexivity.
    + destruct (is_valid form) eqn:Hv.
      * rewrite (list_valid_no_q request Hv Hq). reflexivity.
      * rewrite (list_invalid request Hv). reflexivity.
Qed.

(** X2.  Whatever the handler hands to [get_object_list] is the request it
    received, a fresh paginator, and the form's cleaned data with the same
    keys and, under every key but ['q'], the same value. *)
Theorem list_touches_only_q (request : Request) r cd p :
  let form := SearchForm (GET request) in
  get_object_list_call r cd p ∈ calls (SearchViewSet.list request) ->
  r = request /\ p = PageNumberPagination /\
  dom cd = dom (cleaned_data form) /\
  forall key, key <> "q" -> cd !! key = cleaned_data form !! key.
Proof.
  intros form Hin%elem_of_get_object_list_args.
  rewrite (list_get_object_list_args request) in Hin. fold form in Hin.
  destruct (is_valid form); [|by apply elem_of_nil in Hin].
  destruct (cleaned_data form !! "q") as [q|] eqn:Hq;
    [|by apply elem_of_nil in Hin].
  apply list_elem_of_singleton in Hin. injection Hin as -> -> ->.
  split; [reflexivity|]. split; [reflexivity|].
  unfold handed_on. destruct (py_eq q (PyStr "")).
  - split.
    + apply dom_insert_lookup_L. rewrite Hq. by eexists.
    + intros key Hkey. apply lookup_insert_ne. congruence.
  - split; [reflexivity|]. intros; reflexivity.
Qed.

(** X3.  In every run, finished or cut short, each later call is fed by the
    calls before it: the paginator is asked to paginate only the object list
    [get_object_list] returned, with the paginator state it left and the
    request of the handler; the serializer gets only the page the paginator
    returned, with [many=True] and the schema of that object list; and the
    paginator builds its response only from the serialized page, which the
    handler then returns. *)
Theorem list_calls_are_fed_by_earlier_calls (request : Request) :
  let form := SearchForm (GET request) in
  let run := SearchViewSet.list request in
  (forall p sl r,
     paginate_queryset_call p sl r ∈ calls run ->
     r = request /\
     exists q, cleaned_data form !! "q" = Some q /\
       get_object_list request (handed_on (cleaned_data form) q)
         PageNumberPagination = Returns (sl, p)) /\
  (forall result_page many schema,
     SearchResultSerializer_call result_page many schema ∈ calls run ->
     many = true /\
     exists q sl p1 p2, cleaned_data form !! "q" = Some q /\
       get_object_list request (handed_on (cleaned_data form) q)
         PageNumberPagination = Returns (sl, p1) /\
       paginate_queryset p1 sl request = Returns (result_page, p2) /\
       schema = conn_schema sl) /\
  (forall p d,
     get_paginated_response_call p d ∈ calls run ->
     outcome run = Returns (get_paginated_response p d) /\
     exists q, cleaned_data form !! "q" = Some q /\
       serialized_page request (handed_on (cleaned_data form) q) p d).
Proof.
  intros form run. subst run.
  destruct (is_valid form) eqn:Hv.
  2:{ rewrite (list_invalid request Hv). unfold calls; simpl.
      repeat split; intros;
        repeat match goal with
               | Hin : _ ∈ _ :: _ |- _ => apply elem_of_cons in Hin as [Hin|Hin]
               | Hin : _ ∈ [] |- _ => by apply elem_of_nil in Hin
               end; discriminate. }
  destruct (cleaned_data form !! "q") as [q|] eqn:Hq.
  2:{ rewrite (list_valid_no_q request Hv Hq). unfold calls; simpl.
      repeat split; intros;
        repeat match goal with
               | Hin : _ ∈ _ :: _ |- _ => apply elem_of_cons in Hin as [Hin|Hin]
               | Hin : _ ∈ [] |- _ => by apply elem_of_nil in Hin
               end; discriminate. }
  rewrite (list_valid request q Hv Hq). cbv zeta. fold form.
  unfold serialized_page.
  destruct (get_object_list _ _ _) as [[sl p1]|e0] eqn:Hg;
    [destruct (paginate_queryset _ _ _) as [[result_page p2]|e0] eqn:Hp;
     [destruct (SearchResultSerializer _ _ _) as [d|e0] eqn:Hs|]|];
    unfold calls, outcome; simpl;
    (split; [|split]); intros;
      repeat match goal with
             | Hin : _ ∈ _ :: _ |- _ => apply elem_of_cons in Hin as [Hin|Hin]
             | Hin : _ ∈ [] |- _ => by apply elem_of_nil in Hin
             end; try discriminate;
      match goal with Hin : _ = _ |- _ => inversion Hin; subst end;
      eauto 12.
Qed.
End search_runs.

(** ** Querysets: what each one serves *)

Lemma filter_all {A} (l : list A) : List.filter (fun _ => true) l = l.
Proof. induction l as [|x l IH]; simpl; [reflexivity|]. by rewrite IH. Qed.

Lemma filter_sublist {A} (f : A -> bool) (l : list A) :
  List.filter f l `sublist_of` l.
Proof.
  induction l as [|x l IH]; simpl; [constructor|].
  destruct (f x); by constructor.
Qed.

Lemma refine_db_model qs r :
  _db (refine qs r) = _db qs /\ model (refine qs r) = model qs.
Proof. destruct r; split; reflexivity. Qed.

Lemma filter_queryset_db_model backends qs :
  _db (filter_queryset backends qs) = _db qs /\
  model (filter_queryset backends qs) = model qs.
Proof.
  unfold filter_queryset. revert qs.
  induction backends as [|r backends IH]; intros qs; simpl; [done|].
  destruct (IH (refine qs r)) as [-> ->]. apply refine_db_model.
Qed.

(** Every queryset of the file carries the alias of the read database. *)
Lemma viewset_queryset_db imp v get_queryset :
  v ∈ viewsets -> get_queryset_method v = Some get_queryset ->
  _db (get_queryset imp) = Some (get_api_read_db imp).
Proof.
  intros Hin Hm. unfold viewsets in Hin.
  repeat (apply elem_of_cons in Hin as [->|Hin]);
    try (injection Hm as <-; reflexivity); try discriminate.
  by apply elem_of_nil in Hin.
Qed.

(** X4.  Each model viewset serves the model its name says, and every one
    but [CourtViewSet] serves the whole table of that model on the read
    database: its queryset drops no row. *)
Theorem model_viewsets_serve_whole_table
    (imp : Imports) (tables : string -> Model -> list Row) (fallback : string) :
  served_models imp =
    [("OriginatingCourtInformationViewSet", OriginatingCourtInformation);
     ("DocketViewSet", Docket); ("DocketEntryViewSet", DocketEntry);
     ("RECAPDocumentViewSet", RECAPDocument); ("CourtViewSet", Court);
     ("OpinionClusterViewSet", OpinionCluster); ("OpinionViewSet", Opinion);
     ("OpinionsCitedViewSet", OpinionsCited); ("TagViewSet", Tag)] /\
  forall v get_queryset,
    v ∈ viewsets -> get_queryset_method v = Some get_queryset ->
    name v <> "CourtViewSet" ->
    evaluate tables fallback (get_queryset imp) =
      tables (get_api_read_db imp) (model (get_queryset imp)).
Proof.
  split; [reflexivity|].
  intros v get_queryset Hin Hm Hname. unfold viewsets in Hin.
  repeat (apply elem_of_cons in Hin as [->|Hin]);
    try (injection Hm as <-; unfold evaluate, selects; simpl;
         apply filter_all);
    try discriminate.
  - exfalso. apply Hname. reflexivity.
  - by apply elem_of_nil in Hin.
Qed.

(** X5.  Whatever filter backends refine the queryset of a model viewset,
    the rows a list request pages through are rows of that model's table on
    the read database (none added, none repeated), and so is the object of
    a retrieve:
    no refinement moves a viewset to another database or another table. *)
Theorem list_rows_within_read_db_table
    (imp : Imports) (tables : string -> Model -> list Row) (fallback : string)
    (backends : list Refinement) (v : ViewSetClass)
    (get_queryset : Imports -> QuerySet) :
  v ∈ viewsets ->
  get_queryset_method v = Some get_queryset ->
  let table := tables (get_api_read_db imp) (model (get_queryset imp)) in
  list_rows tables fallback backends (get_queryset imp) `sublist_of` table /\
  forall pk (row : Row),
    get_object tables fallback backends (get_queryset imp) pk = Some row ->
    row ∈ table.
Proof.
  intros Hin Hm table. subst table.
  pose proof (viewset_queryset_db imp v get_queryset Hin Hm) as Hdb.
  destruct (filter_queryset_db_model backends (get_queryset imp)) as [Hd Hmo].
  split.
  - unfold list_rows, evaluate, db. rewrite Hd, Hmo, Hdb. simpl.
    apply filter_sublist.
  - intros pk row Hget. unfold get_object in Hget.
    apply head_Some_elem_of, elem_of_evaluate in Hget as [Hget _].
    unfold db in Hget. simpl in Hget. rewrite Hd, Hmo, Hdb in Hget.
    exact Hget.
Qed.

(** X6.  The querysets of [DocketEntryViewSet] and [RECAPDocumentViewSet],
    and only these, end in [order_by()] and carry no ordering; the other
    seven keep the default ordering of their model. *)
Theorem querysets_ordering (imp : Imports) :
  names_where (has_ordering_removed imp) =
    ["DocketEntryViewSet"; "RECAPDocumentViewSet"] /\
  names_where (has_default_ordering imp) =
    ["OriginatingCourtInformationViewSet"; "DocketViewSet"; "CourtViewSet";
     "OpinionClusterViewSet"; "OpinionViewSet"; "OpinionsCitedViewSet";
     "TagViewSet"].
Proof. split; reflexivity. Qed.

(** * Runs on the sample collaborators *)

Module Runs.
Import Sample.

Lemma paginated_200 p d :
  status_code (@get_paginated_response types world p d) = HTTP_200_OK.
Proof. reflexivity. Qed.

(** C1, witness: a refused form and a search that succeeds. *)
Lemma list_400_iff_invalid_witness :
outcome (run [("type", "zz")]) =
  Returns {| data := Errors {["type" := ["Select a valid choice."]]};
             status_code := 400 |} /\
outcome (run [("q", "a")]) =
  Returns (paginated_response
             {| page_size := 2; page := Some (1, 1);
                count := 1 |} ["a"]).
Proof.
destruct (list_400_iff_invalid paginated_200
            {| GET := [("type", "zz")] |}) as [Hinvalid _].
destruct (list_400_iff_invalid paginated_200
            {| GET := [("q", "a")] |}) as [_ Hvalid].
split.
- apply Hinvalid. reflexivity.
- destruct (Hvalid eq_refl) as [_ Hq].
  destruct (Hq (PyStr "a") eq_refl) as [Hreturns _].
  apply Hreturns. eexists _, _. split; [|reflexivity].
  eexists _, _, _. repeat split.
Defined.

(** C1, counterexample: the form of [?q=a&page=0] is valid, the paginator
  refuses page 0, and the handler raises instead of returning a paginated
  response. *)
Lemma list_valid_form_no_response :
is_valid (form [("q", "a"); ("page", "0")]) = true /\
outcome (run [("q", "a"); ("page", "0")]) =
  Raises (Raised NotFound).
Proof. split; reflexivity. Qed.



(** C3, witness: [?type=r] has an empty ['q'], handed on as ['*']. *)
Lemma list_replaces_empty_q_witness :
get_object_list_args (calls (run [("type", "r")])) =
  [({| GET := [("type", "r")] |},
    <["q" := PyStr "*"]> (<["type" := PyStr "r"]> {["q" := PyStr ""]}),
    {| page_size := 2; page := None; count := 0 |})].
Proof.
destruct (list_replaces_empty_q (H0 := world)
            {| GET := [("type", "r")] |}) as (Hempty & _ & _).
exact (Hempty eq_refl eq_refl).
Defined.

(** C9, witness: what [?type=zz] returns is the 400 with the form's
  errors. *)
Lemma only_error_response_is_search_400_witness :
((is_valid (form [("type", "zz")]) = false /\
  {| data := Errors {["type" := ["Select a valid choice."]]};
     status_code := 400 |} =
  {| data := Errors (errors (form [("type", "zz")]));
     status_code := HTTP_400_BAD_REQUEST |}) \/
 (is_valid (form [("type", "zz")]) = true /\
  exists p d,
    {| data := Errors {["type" := ["Select a valid choice."]]};
       status_code := 400 |} = paginated_response p d)) /\
(is_valid (form [("q", "a"); ("page", "0")]) = true /\
 ((cleaned_data (form [("q", "a"); ("page", "0")]) !! "q" = None /\
   Raised NotFound = KeyError "q") \/
  exists q,
    cleaned_data (form [("q", "a"); ("page", "0")]) !! "q" = Some q /\
    collaborator_raises {| GET := [("q", "a"); ("page", "0")] |}
      (handed_on (cleaned_data (form [("q", "a"); ("page", "0")])) q)
      (Raised NotFound))).
Proof.
destruct (only_error_response_is_search_400 (H0 := world)
            {| GET := [("type", "zz")] |}) as (_ & Hbuilt & _).
destruct (only_error_response_is_search_400 (H0 := world)
            {| GET := [("q", "a"); ("page", "0")] |}) as (_ & _ & _ & Hraised).
split; [exact (Hbuilt _ eq_refl)|exact (Hraised _ eq_refl)].
Defined.

(** X1, witness: [?type=zz] is refused after two calls. *)
Lemma search_backend_reached_iff_witness :
  calls (run [("type", "zz")]) =
    [SearchForm_call [("type", "zz")];
     is_valid_call (form [("type", "zz")])].
Proof.
  destruct (search_backend_reached_iff (H0 := world)
              {| GET := [("type", "zz")] |}) as (_ & _ & Hshort).
  apply Hshort. left. reflexivity.
Defined.

(** X2, witness: for [?type=r] the ['type'] handed on is the form's. *)
Lemma list_touches_only_q_witness :
  (<["q" := PyStr "*"]> (<["type" := PyStr "r"]> {["q" := PyStr ""]})
     : gmap string PyVal) !! "type" =
  cleaned_data (form [("type", "r")]) !! "type".
Proof.
  assert (get_object_list_call {| GET := [("type", "r")] |}
            (<["q" := PyStr "*"]> (<["type" := PyStr "r"]> {["q" := PyStr ""]}))
            {| page_size := 2; page := None; count := 0 |}
          ∈ calls (run [("type", "r")])) as Hin.
  { do 2 apply list_elem_of_further. apply list_elem_of_here. }
  destruct (list_touches_only_q (H0 := world) _ _ _ _ Hin)
    as (_ & _ & _ & Hkeys).
  apply Hkeys. discriminate.
Defined.

(** X3, witness: the response built in the run of [?q=a] is returned. *)
Lemma list_calls_are_fed_by_earlier_calls_witness :
  outcome (run [("q", "a")]) =
    Returns (paginated_response
               {| page_size := 2; page := Some (1, 1); count := 1 |} ["a"]).
Proof.
  destruct (list_calls_are_fed_by_earlier_calls (H0 := world)
              {| GET := [("q", "a")] |}) as (_ & _ & Hlast).
  apply (Hlast {| page_size := 2; page := Some (1, 1); count := 1 |} ["a"]).
  do 5 apply list_elem_of_further. apply list_elem_of_here.
Defined.
End Runs.

(** C4, counterexample: [OriginatingCourtInformationViewSet] is a viewset of
    the file that selects no filter class and no permission classes, and its
    queryset carries no eager-loading hint. *)
Lemma originating_court_viewset_selects_less :
  OriginatingCourtInformationViewSet.cls ∈ viewsets /\
  filter_class OriginatingCourtInformationViewSet.cls = None /\
  permission_classes OriginatingCourtInformationViewSet.cls = None /\
  select_related_fields
    (OriginatingCourtInformationViewSet.get_queryset Sample.imports) = [] /\
  prefetch_related_lookups
    (OriginatingCourtInformationViewSet.get_queryset Sample.imports) = [].
Proof. repeat split. apply list_elem_of_here. Qed.

(** C5, counterexample: [OpinionsCitedViewSet] is a model viewset with no
    ordering fields, and [TagViewSet] one with no filter class either. *)
Lemma opinions_cited_viewset_has_no_ordering_fields :
  OpinionsCitedViewSet.cls ∈ viewsets /\
  ModelViewSet ∈ bases OpinionsCitedViewSet.cls /\
  ordering_fields OpinionsCitedViewSet.cls = None /\
  TagViewSet.cls ∈ viewsets /\
  ModelViewSet ∈ bases TagViewSet.cls /\
  filter_class TagViewSet.cls = None /\
  ordering_fields TagViewSet.cls = None.
Proof.
  unfold viewsets. repeat split;
    repeat first [ apply list_elem_of_here | apply list_elem_of_further ].
Qed.

(** C6, witness: [RECAPDocumentViewSet] serves a model, extends
    [ModelViewSet] and has a handler for delete. *)
Lemma model_viewsets_expose_crud_witness :
  ModelViewSet ∈ bases RECAPDocumentViewSet.cls /\
  act_destroy ∈ handlers Sample.imports RECAPDocumentViewSet.cls.
Proof.
  assert (RECAPDocumentViewSet.cls ∈ viewsets) as Hin.
  { unfold viewsets.
    repeat first [ apply list_elem_of_here | apply list_elem_of_further ]. }
  destruct (model_viewsets_expose_crud Sample.imports
              RECAPDocumentViewSet.cls Hin (mk_is_Some _ _ eq_refl))
    as [Hbase Hall].
  split; [exact Hbase|]. apply Hall.
  repeat first [ apply list_elem_of_here | apply list_elem_of_further ].
Defined.

(** C7, witness: on the sample servers the court queryset yields the
    federal court alone, and its jurisdiction is not the testing one. *)
Lemma court_queryset_excludes_testing_courts_witness :
  evaluate Sample.tables "default" (CourtViewSet.get_queryset Sample.imports) =
    [Sample.scotus] /\
  Sample.scotus !! "jurisdiction" <> Some (PyStr "T") /\
  get_object Sample.tables "default" [refine_order_by ["position"]]
    (CourtViewSet.get_queryset Sample.imports) (PyStr "test") = None.
Proof.
  destruct (court_queryset_excludes_testing_courts Sample.imports
              Sample.tables "default") as (Hrows & Hnone & _ & _).
  split; [rewrite Hrows; reflexivity|]. split.
  - apply Hnone. rewrite Hrows. apply list_elem_of_here.
  - reflexivity.
Defined.

(** C8, witness: the court queryset is bound to the replica. *)
Lemma get_queryset_uses_read_db_witness :
  _db (CourtViewSet.get_queryset Sample.imports) = Some "replica" /\
  db "default" (CourtViewSet.get_queryset Sample.imports) = "replica".
Proof.
  assert (CourtViewSet.cls ∈ viewsets) as Hin.
  { unfold viewsets.
    repeat first [ apply list_elem_of_here | apply list_elem_of_further ]. }
  destruct (get_queryset_uses_read_db Sample.imports CourtViewSet.cls
              CourtViewSet.get_queryset Hin eq_refl) as (Hdb & Hrun & _).
  split; [exact Hdb|exact (Hrun "default")].
Defined.

(** X4, witness: the tag queryset serves the whole tag table. *)
Lemma model_viewsets_serve_whole_table_witness :
  evaluate (fun _ _ => [Sample.scotus; Sample.test_court]) "default"
    (TagViewSet.get_queryset Sample.imports) =
  [Sample.scotus; Sample.test_court].
Proof.
  assert (TagViewSet.cls ∈ viewsets) as Hin.
  { unfold viewsets.
    repeat first [ apply list_elem_of_here | apply list_elem_of_further ]. }
  destruct (model_viewsets_serve_whole_table Sample.imports
              (fun _ _ => [Sample.scotus; Sample.test_court]) "default")
    as [_ Hwhole].
  apply (Hwhole TagViewSet.cls TagViewSet.get_queryset Hin eq_refl).
  discriminate.
Defined.

(** X5, witness: a filtered court list stays within the replica's table. *)
Lemma list_rows_within_read_db_table_witness :
  list_rows Sample.tables "default" [refine_filter "id" (PyStr "scotus")]
    (CourtViewSet.get_queryset Sample.imports)
  `sublist_of` [Sample.scotus; Sample.test_court].
Proof.
  assert (CourtViewSet.cls ∈ viewsets) as Hin.
  { unfold viewsets.
    repeat first [ apply list_elem_of_here | apply list_elem_of_further ]. }
  destruct (list_rows_within_read_db_table Sample.imports Sample.tables
              "default" [refine_filter "id" (PyStr "scotus")]
              CourtViewSet.cls CourtViewSet.get_queryset Hin eq_refl)
    as [Hsub _].
  exact Hsub.
Defined.

(** C8, counterexample: on a site where [get_api_read_db()] returns the
    default alias, the tag queryset is evaluated on the default database
    and serves the rows of the default server's table. *)
Lemma read_db_may_be_the_default :
  TagViewSet.cls ∈ viewsets /\
  get_queryset_method TagViewSet.cls = Some TagViewSet.get_queryset /\
  _db (TagViewSet.get_queryset Sample.imports_on_default) =
    Some DEFAULT_DB_ALIAS /\
  db "replica" (TagViewSet.get_queryset Sample.imports_on_default) =
    DEFAULT_DB_ALIAS /\
  evaluate (fun alias _ => if String.eqb alias DEFAULT_DB_ALIAS
                           then [Sample.scotus] else [])
    "replica" (TagViewSet.get_queryset Sample.imports_on_default) =
    [Sample.scotus].
Proof.
  unfold viewsets. repeat split;
    repeat first [ apply list_elem_of_here | apply list_elem_of_further ].
Qed.
